(** * verification/verify_landing.py: the landing-page capture script

    The script drives a headless browser through the Playwright
    synchronous API: it enters a Playwright session, launches Chromium,
    opens a page, navigates to [landing/index.html] under the current
    working directory, takes a full-page screenshot, waits two seconds and
    takes a clipped screenshot of the hero section, then closes the browser.

    The procedure [run] is embedded as a computation in a state-and-exception
    monad over a [World]: the process' working directory, the filesystem, a
    millisecond clock, the Playwright session and the log of the calls made.
    The browser engine is a collaborator outside the repository; its
    rendering function is a parameter ([render]) and the failures of its
    calls are decided by an oracle ([faults]). *)

From Stdlib Require Import ZArith Ascii String List Lia.
From stdpp Require Import base option strings gmap.
Import ListNotations.

Local Open Scope Z_scope.

(** ** Data passed to the browser API *)

(** [viewport={'width': .., 'height': ..}] *)
Record Viewport := mkViewport { width : Z; height : Z }.

(** [clip={'x': .., 'y': .., 'width': .., 'height': ..}] *)
Record Rect := mkRect { rx : Z; ry : Z; rwidth : Z; rheight : Z }.

(** What a screenshot covers: [full_page=True] or [clip=...]. *)
Inductive Region :=
| FullPage
| Clip (r : Rect).

(** A raster image: its dimensions in pixels and its encoded bytes. *)
Record Image := mkImage { img_width : Z; img_height : Z; img_data : list Z }.

(** A file is a document the engine can load or a picture it has written. *)
Inductive File :=
| Document (src : string)
| Picture (img : Image).

(** Handles returned by the API. A run owns one session, one browser and
    one page, so a handle carries no more than its kind. *)
Inductive Playwright := PlaywrightHandle.
Inductive Browser := BrowserHandle.
Inductive Page := PageHandle.

(** ** Calls, events and exceptions *)

(** The operations of the outside world, with their arguments.
    [SetViewportSize] is the page's viewport mutator; it is part of the
    page interface although [run] has no statement that calls it. *)
Inductive Call :=
| SyncPlaywrightEnter
| ChromiumLaunch (headless : bool)
| NewPage (viewport : Viewport)
| Getcwd
| Goto (url : string)
| Screenshot (path : string) (region : Region)
| WaitForTimeout (ms : Z)
| SetViewportSize (viewport : Viewport)
| BrowserClose
| SyncPlaywrightExit.

(** A logged call: whether it returned normally, and the viewport of the
    open page (if any) right after it. *)
Record Event := mkEvent {
  ev_call : Call;
  ev_ok : bool;
  ev_viewport : option Viewport
}.

(** An exception names the call that raised it. *)
Inductive Exn := Failed (c : Call).

Inductive Result (A : Type) :=
| Ok (a : A)
| Raise (e : Exn).
Arguments Ok {A} a.
Arguments Raise {A} e.

(** ** The world *)

Record PageState := mkPage {
  pg_viewport : Viewport;
  pg_content : option File
}.

Record World := mkWorld {
  cwd : string;                  (* os.getcwd() *)
  fs : gmap string File;         (* absolute path -> file *)
  clock : Z;                     (* milliseconds *)
  driver : bool;                 (* the Playwright driver is running *)
  browser_open : bool;           (* a launched browser is alive *)
  page : option PageState;       (* the open page *)
  log : list Event               (* calls made so far, oldest first *)
}.

(** The world of a freshly started process. *)
Definition process_start (dir : string) (files : gmap string File) (now : Z) : World :=
  mkWorld dir files now false false None [].

Definition set_fs (m : gmap string File) (w : World) : World :=
  mkWorld (cwd w) m (clock w) (driver w) (browser_open w) (page w) (log w).

Definition set_clock (t : Z) (w : World) : World :=
  mkWorld (cwd w) (fs w) t (driver w) (browser_open w) (page w) (log w).

Definition set_driver (b : bool) (w : World) : World :=
  mkWorld (cwd w) (fs w) (clock w) b (browser_open w) (page w) (log w).

Definition set_browser (b : bool) (w : World) : World :=
  mkWorld (cwd w) (fs w) (clock w) (driver w) b (page w) (log w).

Definition set_page (p : option PageState) (w : World) : World :=
  mkWorld (cwd w) (fs w) (clock w) (driver w) (browser_open w) p (log w).

(** Append a call to the log, with the viewport then in effect. *)
Definition emit (c : Call) (ok : bool) (w : World) : World :=
  mkWorld (cwd w) (fs w) (clock w) (driver w) (browser_open w) (page w)
          (log w ++ [mkEvent c ok (pg_viewport <$> page w)]).

(** ** The monad: state passing with exceptions *)

Definition M (A : Type) : Type := World -> Result A * World.

#[global] Instance M_ret : MRet M := fun A a w => (Ok a, w).

#[global] Instance M_bind : MBind M := fun A B k m w =>
  match m w with
  | (Ok a, w1) => k a w1
  | (Raise e, w1) => (Raise e, w1)
  end.

(** Leaving a [with] block whose body ended as [out]: the context manager's
    exit runs. The exit of [sync_playwright] returns [None], so an
    exception of the body is raised again after it; an exception of the
    exit itself replaces the outcome. *)
Definition leave {B} (exit : M unit) (out : Result B * World) : Result B * World :=
  match exit (snd out) with
  | (Ok _, w3) => (fst out, w3)
  | (Raise e, w3) => (Raise e, w3)
  end.

(** [with cm as x: body]: the exit runs on every way out of the body, once
    the entry has succeeded. *)
Definition with_ {A B} (enter : M A) (exit : M unit) (body : A -> M B) : M B :=
  fun w =>
    match enter w with
    | (Ok a, w1) => leave exit (body a w1)
    | (Raise e, w1) => (Raise e, w1)
    end.

(** ** Paths and URLs *)

(** [strip_prefix p s] is [Some t] when [s = p +:+ t]. *)
Fixpoint strip_prefix (p s : string) : option string :=
  match p with
  | EmptyString => Some s
  | String a p' =>
      match s with
      | EmptyString => None
      | String b s' => if Ascii.eqb a b then strip_prefix p' s' else None
      end
  end.

(** ASCII tab, line feed and carriage return: a URL parser drops them
    wherever they stand. *)
Definition is_tab_or_newline (c : ascii) : bool :=
  Ascii.eqb c "009" || Ascii.eqb c "010" || Ascii.eqb c "013".

Fixpoint remove_tabs_newlines (s : string) : string :=
  match s with
  | EmptyString => EmptyString
  | String c t =>
      if is_tab_or_newline c then remove_tabs_newlines t
      else String c (remove_tabs_newlines t)
  end.

(** The part of a URL before its query ([?]) or fragment ([#]). *)
Fixpoint before_query (s : string) : string :=
  match s with
  | EmptyString => EmptyString
  | String c t =>
      if Ascii.eqb c "#" || Ascii.eqb c "?" then EmptyString
      else String c (before_query t)
  end.

(** In the path of a [file:] URL a backslash is read as a slash. *)
Fixpoint slashes (s : string) : string :=
  match s with
  | EmptyString => EmptyString
  | String c t => String (if Ascii.eqb c "\" then "/"%char else c) (slashes t)
  end.

Definition hex_digit (c : ascii) : option N :=
  let n := N_of_ascii c in
  if (48 <=? n)%N && (n <=? 57)%N then Some (n - 48)%N
  else if (65 <=? n)%N && (n <=? 70)%N then Some (n - 55)%N
  else if (97 <=? n)%N && (n <=? 102)%N then Some (n - 87)%N
  else None.

(** [%hh] stands for the byte of hexadecimal code [hh]; a [%] that is not
    followed by two hexadecimal digits stands for itself. *)
Fixpoint percent_decode (s : string) : string :=
  match s with
  | EmptyString => EmptyString
  | String c t =>
      if Ascii.eqb c "%" then
        match t with
        | String h (String l t') =>
            match hex_digit h, hex_digit l with
            | Some a, Some b => String (ascii_of_N (16 * a + b)) (percent_decode t')
            | _, _ => String c (percent_decode t)
            end
        | _ => String c (percent_decode t)
        end
      else String c (percent_decode t)
  end.

(** The local file designated by what follows [file://] in a URL: the
    query and the fragment are not part of the path, and the escapes of the
    path are decoded. *)
Definition file_path (rest : string) : string :=
  percent_decode (slashes (before_query rest)).

(** The local path a [file://] URL designates, as the browser reads the
    URL. [os.getcwd()] is absolute, so the URL of the script has an empty
    host and its path starts right after [file://]. *)
Definition url_to_path (url : string) : option string :=
  file_path <$> strip_prefix "file://" (remove_tabs_newlines url).



Definition is_absolute (path : string) : bool :=
  match path with
  | String "/"%char _ => true
  | _ => false
  end.

(** A relative path is resolved against the working directory. *)
Definition resolve (dir path : string) : string :=
  if is_absolute path then path else dir +:+ "/" +:+ path.

(** ** The area of a capture *)

(** A clip is cut to the part of it that lies inside the viewport. *)
Definition trim (r : Rect) (vp : Viewport) : Rect :=
  let x1 := Z.max 0 (Z.min (rx r) (width vp)) in
  let y1 := Z.max 0 (Z.min (ry r) (height vp)) in
  let x2 := Z.max 0 (Z.min (rx r + rwidth r) (width vp)) in
  let y2 := Z.max 0 (Z.min (ry r + rheight r) (height vp)) in
  mkRect x1 y1 (x2 - x1) (y2 - y1).

(** The picture a screenshot writes, from what the engine rendered. A
    full-page picture is as large as the engine made it. A clipped picture
    has the size of the trimmed clip, one pixel per CSS pixel (the script
    sets no device scale factor), and there is none when the trimmed clip
    is empty. *)
Definition snapshot (vp : Viewport) (region : Region) (img : Image) : option Image :=
  match region with
  | FullPage => Some img
  | Clip r =>
      let area := trim r vp in
      if (rwidth area =? 0) || (rheight area =? 0) then None
      else Some (mkImage (rwidth area) (rheight area) (img_data img))
  end.

(** ** The outside world: Playwright, the browser and the OS *)

Section Engine.

(** The rendering engine: the picture of a loaded file at a viewport, at a
    given time, over a region. *)
Variable render : File -> Viewport -> Z -> Region -> Image.

(** The fault oracle: the calls that fail for reasons outside the model
    (the driver or the browser cannot start, the page crashes, the output
    cannot be written, ...). *)
Variable faults : Call -> bool.

(** An API call [c]. It raises when the oracle says so or when the world
    does not allow it ([act w = None]); a call that raised is logged as
    failed and has no other effect. Otherwise it returns its value and
    leaves the world [act] gives, and is logged as passed. *)
Definition call {A} (c : Call) (act : World -> option (A * World)) : M A :=
  fun w =>
    if faults c then (Raise (Failed c), emit c false w)
    else
      match act w with
      | Some (a, w') => (Ok a, emit c true w')
      | None => (Raise (Failed c), emit c false w)
      end.

(** [sync_playwright().__enter__()]: starts the driver. *)
Definition sync_playwright_enter : M Playwright :=
  call SyncPlaywrightEnter (fun w => Some (PlaywrightHandle, set_driver true w)).

(** [sync_playwright().__exit__(...)]: stops the driver; the driver takes
    down the browser it launched, and its page with it. *)
Definition sync_playwright_exit : M unit :=
  call SyncPlaywrightExit (fun w =>
    Some (tt, set_page None (set_browser false (set_driver false w)))).

(** [p.chromium.launch(headless=...)] *)
Definition chromium_launch (p : Playwright) (headless : bool) : M Browser :=
  call (ChromiumLaunch headless) (fun w =>
    if driver w then Some (BrowserHandle, set_browser true w) else None).

(** [browser.new_page(viewport=...)]: a blank page with that viewport. *)
Definition new_page (b : Browser) (vp : Viewport) : M Page :=
  call (NewPage vp) (fun w =>
    if browser_open w
    then Some (PageHandle, set_page (Some (mkPage vp None)) w)
    else None).

(** [os.getcwd()] *)
Definition os_getcwd : M string :=
  call Getcwd (fun w => Some (cwd w, w)).

(** [page.goto(url)]: loads the file the URL designates and returns once
    the load has completed; raises if there is no such file. A directory
    is a file too: the document the engine loads for it is its listing. *)
Definition page_goto (pg : Page) (url : string) : M unit :=
  call (Goto url) (fun w =>
    match page w, url_to_path url with
    | Some st, Some path =>
        match fs w !! path with
        | Some f => Some (tt, set_page (Some (mkPage (pg_viewport st) (Some f))) w)
        | None => None
        end
    | _, _ => None
    end).

(** [page.screenshot(path=..., full_page=True)] and
    [page.screenshot(path=..., clip=...)]: renders the loaded document and
    writes the picture to [path], replacing what was there; raises when
    the area to capture is empty. *)
Definition page_screenshot (pg : Page) (path : string) (region : Region) : M unit :=
  call (Screenshot path region) (fun w =>
    match page w with
    | Some (mkPage vp (Some f)) =>
        match snapshot vp region (render f vp (clock w) region) with
        | Some img =>
            Some (tt, set_fs (<[resolve (cwd w) path := Picture img]> (fs w)) w)
        | None => None
        end
    | _ => None
    end).

(** [page.wait_for_timeout(ms)]: suspends the caller for [ms] milliseconds. *)
Definition page_wait_for_timeout (pg : Page) (ms : Z) : M unit :=
  call (WaitForTimeout ms) (fun w =>
    match page w with
    | Some _ => Some (tt, set_clock (clock w + ms) w)
    | None => None
    end).

(** [page.set_viewport_size(...)]: replaces the viewport of the page. *)
Definition page_set_viewport_size (pg : Page) (vp : Viewport) : M unit :=
  call (SetViewportSize vp) (fun w =>
    match page w with
    | Some st => Some (tt, set_page (Some (mkPage vp (pg_content st))) w)
    | None => None
    end).

(** [browser.close()] *)
Definition browser_close (b : Browser) : M unit :=
  call BrowserClose (fun w =>
    if browser_open w
    then Some (tt, set_page None (set_browser false w))
    else None).

(** ** The script *)

(** [def run(): ...] *)
Definition run : M unit :=
  with_ sync_playwright_enter sync_playwright_exit (fun p =>
    browser ← chromium_launch p true;
    page ← new_page browser (mkViewport 1280 2000);
    cwd ← os_getcwd;
    page_goto page ("file://" +:+ cwd +:+ "/landing/index.html");;
    page_screenshot page "verification/landing_page_full.png" FullPage;;
    page_wait_for_timeout page 2000;;
    page_screenshot page "verification/landing_page_hero.png"
      (Clip (mkRect 0 0 1200 800));;
    browser_close browser).

(** [if __name__ == '__main__': run()] *)
Definition script (name : string) : M unit :=
  if String.eqb name "__main__" then run else mret tt.

End Engine.

(** The exit status of the interpreter: 0 when the script ran to its end,
    1 when an exception reached the top level. *)
Definition exit_code {A} (r : Result A) : Z :=
  match r with
  | Ok _ => 0
  | Raise _ => 1
  end.

(** ** Observations on a run *)

(** The files of the script, for a process started in [dir]. *)
Definition target_path (dir : string) : string := dir +:+ "/landing/index.html".
Definition target_url (dir : string) : string := "file://" +:+ target_path dir.

(** The file that the URL the script navigates to designates. *)
Definition document_path (dir : string) : string :=
  file_path (remove_tabs_newlines (dir +:+ "/landing/index.html")).
Definition full_path (dir : string) : string :=
  resolve dir "verification/landing_page_full.png".
Definition hero_path (dir : string) : string :=
  resolve dir "verification/landing_page_hero.png".

(** The calls of a log, in the order they were made. *)
Definition calls (l : list Event) : list Call := map ev_call l.

(** A browser was launched. *)
Definition acquired (l : list Event) : bool :=
  existsb (fun e =>
    match ev_call e with ChromiumLaunch _ => ev_ok e | _ => false end) l.

(** The URLs navigated to. *)
Definition navigated (l : list Event) : list string :=
  omap (fun e => match ev_call e with Goto url => Some url | _ => None end) l.

(** A navigation completed. *)
Definition loaded (l : list Event) : bool :=
  existsb (fun e => match ev_call e with Goto _ => ev_ok e | _ => false end) l.

(** The files written by a process started in [dir]. *)
Definition writes (dir : string) (l : list Event) : list string :=
  omap (fun e =>
    match ev_call e with
    | Screenshot path _ => if ev_ok e then Some (resolve dir path) else None
    | _ => None
    end) l.

(** The capture to [path] was taken. *)
Definition captured (path : string) (l : list Event) : bool :=
  existsb (fun e =>
    match ev_call e with
    | Screenshot p _ => String.eqb p path && ev_ok e
    | _ => false
    end) l.

(** [browser.close()] was called. *)
Definition close_called (l : list Event) : bool :=
  existsb (fun e => match ev_call e with BrowserClose => true | _ => false end) l.

(** The rectangles of the clipped captures requested. *)
Definition clips (l : list Event) : list Rect :=
  omap (fun e =>
    match ev_call e with Screenshot _ (Clip r) => Some r | _ => None end) l.

(** The calls that set a viewport. *)
Definition viewport_settings (l : list Event) : list Call :=
  omap (fun e =>
    match ev_call e with
    | NewPage _ | SetViewportSize _ => Some (ev_call e)
    | _ => None
    end) l.

(** The viewports the page had, call after call, while it was open. *)
Definition observed_viewports (l : list Event) : list Viewport :=
  omap ev_viewport l.

(** Every capture of [l] is made after a settle wait; [waited] tells whether
    a wait has already been made. *)
Fixpoint waits_before_captures (waited : bool) (l : list Call) : bool :=
  match l with
  | [] => true
  | WaitForTimeout _ :: l' => waits_before_captures true l'
  | Screenshot _ _ :: l' => waited && waits_before_captures waited l'
  | _ :: l' => waits_before_captures waited l'
  end.

(** The rectangle lies inside the viewport. *)
Definition clip_within (r : Rect) (vp : Viewport) : Prop :=
  0 <= rx r /\ 0 <= ry r /\
  rx r + rwidth r <= width vp /\ ry r + rheight r <= height vp.

(** A clipped capture is made from the origin of an open page and stays
    inside its viewport. *)
Definition clip_inside_viewport (e : Event) : Prop :=
  match ev_call e with
  | Screenshot _ (Clip r) =>
      exists vp, ev_viewport e = Some vp /\
                 rx r = 0 /\ ry r = 0 /\ clip_within r vp
  | _ => True
  end.

(** ** Sample engine, oracles and sites *)

#[global] Instance Viewport_eq_dec : EqDecision Viewport.
Proof. solve_decision. Defined.
#[global] Instance Rect_eq_dec : EqDecision Rect.
Proof. solve_decision. Defined.
#[global] Instance Region_eq_dec : EqDecision Region.
Proof. solve_decision. Defined.
#[global] Instance Call_eq_dec : EqDecision Call.
Proof. solve_decision. Defined.

(** An engine without animation: the picture has the size of the viewport
    or of the clip, and its data are the character codes of the document. *)
Definition sample_render (f : File) (vp : Viewport) (t : Z) (r : Region) : Image :=
  let data :=
    match f with
    | Document src => map (fun a => Z.of_nat (nat_of_ascii a)) (list_ascii_of_string src)
    | Picture img => img_data img
    end in
  match r with
  | FullPage => mkImage (width vp) (height vp) data
  | Clip c => mkImage (rwidth c) (rheight c) data
  end.

(** No call fails. *)
Definition no_faults (c : Call) : bool := false.

(** Exactly the call [c0] fails. *)
Definition fails_at (c0 : Call) (c : Call) : bool := bool_decide (c = c0).

(** A site with its landing page, and an empty one. *)
Definition site_files : gmap string File :=
  {[ "/site/landing/index.html" := Document "<h1>Hello</h1>" ]}.
Definition site : World := process_start "/site" site_files 0.
Definition empty_site : World := process_start "/site" ∅ 0.

(** The same landing page under two directories. *)
Definition two_sites : gmap string File :=
  {[ "/srv/a/landing/index.html" := Document "<h1>Hello</h1>";
     "/srv/b/landing/index.html" := Document "<h1>Hello</h1>" ]}.

(** A run on the site where nothing fails, one where the navigation
    fails, and one on the empty site. *)
Definition clean_run : Result unit * World :=
  run sample_render no_faults site.
Definition failed_navigation_run : Result unit * World :=
  run sample_render (fails_at (Goto "file:///site/landing/index.html")) site.
Definition missing_document_run : Result unit * World :=
  run sample_render no_faults empty_site.

(** A second run on the site, started five seconds after the first one
    over the files it left. *)
Definition second_run : Result unit * World :=
  run sample_render no_faults (process_start "/site" (fs clean_run.2) 5000).

(** A directory whose name holds a [#]: it has no landing page, and the
    directory above it is listed by the browser. *)
Definition hash_dir : string := "/home/u/#x".
Definition hash_files : gmap string File :=
  {[ "/home/u/" := Document "<h1>Index of /home/u/</h1>" ]}.
Definition hash_run : Result unit * World :=
  run sample_render no_faults (process_start hash_dir hash_files 0).


(** ** Further observations *)

(** The statements of the [with] block of [run], in the order of the
    source, for a process started in [dir]. *)
Definition steps (dir : string) : list Call :=
  [ ChromiumLaunch true;
    NewPage (mkViewport 1280 2000);
    Getcwd;
    Goto ("file://" +:+ dir +:+ "/landing/index.html");
    Screenshot "verification/landing_page_full.png" FullPage;
    WaitForTimeout 2000;
    Screenshot "verification/landing_page_hero.png" (Clip (mkRect 0 0 1200 800));
    BrowserClose ].

(** The calls that raised, oldest first. *)
Definition failures (l : list Event) : list Call :=
  calls (List.filter (fun e => negb (ev_ok e)) l).

(** How many times the session was entered and left. *)
Definition enter_count (l : list Event) : nat :=
  length (List.filter (fun e =>
    match ev_call e with SyncPlaywrightEnter => true | _ => false end) l).
Definition exit_count (l : list Event) : nat :=
  length (List.filter (fun e =>
    match ev_call e with SyncPlaywrightExit => true | _ => false end) l).

(** * Properties *)

(** ** Paths *)

Lemma strip_prefix_app p s : strip_prefix p (p +:+ s) = Some s.
Proof.
  induction p as [|a p IH]; [done|]. simpl. by rewrite Ascii.eqb_refl.
Qed.

Lemma url_to_path_target dir :
  url_to_path ("file://" +:+ dir +:+ "/landing/index.html") = Some (document_path dir).
Proof. reflexivity. Qed.




Lemma remove_tabs_newlines_length s :
  (String.length (remove_tabs_newlines s) <= String.length s)%nat.
Proof. induction s as [|c s IH]; simpl; [lia|]. destruct (is_tab_or_newline c); simpl; lia. Qed.

Lemma before_query_length s :
  (String.length (before_query s) <= String.length s)%nat.
Proof. induction s as [|c s IH]; simpl; [lia|]. destruct (_ || _); simpl; lia. Qed.

Lemma slashes_length s : String.length (slashes s) = String.length s.
Proof. induction s as [|c s IH]; simpl; [done|]. by rewrite IH. Qed.

Lemma percent_decode_length s :
  (String.length (percent_decode s) <= String.length s)%nat.
Proof.
  remember (String.length s) as n eqn:Hn.
  revert s Hn. induction n as [n IH] using lt_wf_ind. intros s ->.
  destruct s as [|c t]; simpl; [lia|].
  pose proof (IH (String.length t) ltac:(simpl; lia) t eq_refl) as Ht.
  destruct (Ascii.eqb c "%"); simpl; [|lia].
  destruct t as [|h [|l t']]; simpl in *; try lia.
  pose proof (IH (String.length t') ltac:(simpl; lia) t' eq_refl) as Ht'.
  destruct (hex_digit h), (hex_digit l); simpl; lia.
Qed.

Lemma string_length_app s t :
  String.length (s +:+ t) = (String.length s + String.length t)%nat.
Proof. induction s as [|c s IH]; simpl; [done|]. by rewrite IH. Qed.

Lemma document_path_length dir :
  (String.length (document_path dir) <= String.length dir + 19)%nat.
Proof.
  unfold document_path, file_path.
  etrans; [apply percent_decode_length|]. rewrite slashes_length.
  etrans; [apply before_query_length|].
  etrans; [apply remove_tabs_newlines_length|].
  rewrite string_length_app. simpl. lia.
Qed.

Lemma snapshot_full vp img : snapshot vp FullPage img = Some img.
Proof. reflexivity. Qed.

(** A clip that lies inside the viewport is captured whole. *)
Lemma snapshot_within vp r img :
  clip_within r vp -> 0 < rwidth r -> 0 < rheight r ->
  snapshot vp (Clip r) img = Some (mkImage (rwidth r) (rheight r) (img_data img)).
Proof.
  intros (Hx & Hy & Hw & Hh) Hpw Hph. unfold snapshot, trim. cbn [rwidth rheight].
  replace (Z.max 0 (Z.min (rx r + rwidth r) (width vp)) -
           Z.max 0 (Z.min (rx r) (width vp))) with (rwidth r) by lia.
  replace (Z.max 0 (Z.min (ry r + rheight r) (height vp)) -
           Z.max 0 (Z.min (ry r) (height vp))) with (rheight r) by lia.
  destruct (Z.eqb_spec (rwidth r) 0); [lia|].
  destruct (Z.eqb_spec (rheight r) 0); [lia|]. reflexivity.
Qed.

Lemma snapshot_hero img :
  snapshot (mkViewport 1280 2000) (Clip (mkRect 0 0 1200 800)) img =
    Some (mkImage 1200 800 (img_data img)).
Proof. reflexivity. Qed.

Lemma full_path_eq dir :
  full_path dir = dir +:+ "/verification/landing_page_full.png".
Proof. reflexivity. Qed.

Lemma hero_path_eq dir :
  hero_path dir = dir +:+ "/verification/landing_page_hero.png".
Proof. reflexivity. Qed.

Lemma full_hero_distinct dir : full_path dir ≠ hero_path dir.
Proof.
  rewrite full_path_eq, hero_path_eq. intros H.
  apply (inj (String.append dir)) in H. discriminate H.
Qed.

Lemma target_full_distinct dir : full_path dir ≠ target_path dir.
Proof.
  rewrite full_path_eq. unfold target_path. intros H.
  apply (inj (String.append dir)) in H. discriminate H.
Qed.

Lemma target_hero_distinct dir : hero_path dir ≠ target_path dir.
Proof.
  rewrite hero_path_eq. unfold target_path. intros H.
  apply (inj (String.append dir)) in H. discriminate H.
Qed.

(** The outputs are not the document: their paths are longer than any
    path the URL can designate. *)
Lemma document_full_distinct dir : full_path dir ≠ document_path dir.
Proof.
  intros H. pose proof (document_path_length dir) as Hlen.
  rewrite <- H, full_path_eq, string_length_app in Hlen. simpl in Hlen. lia.
Qed.

Lemma document_hero_distinct dir : hero_path dir ≠ document_path dir.
Proof.
  intros H. pose proof (document_path_length dir) as Hlen.
  rewrite <- H, hero_path_eq, string_length_app in Hlen. simpl in Hlen. lia.
Qed.

(** ** Symbolic execution of the script *)

Section Exec.

Variable render : File -> Viewport -> Z -> Region -> Image.
Variable faults : Call -> bool.

Lemma call_eq {A} c (act : World -> option (A * World)) w :
  call faults c act w =
    if faults c then (Raise (Failed c), emit c false w)
    else match act w with
         | Some (a, w') => (Ok a, emit c true w')
         | None => (Raise (Failed c), emit c false w)
         end.
Proof. reflexivity. Qed.

Lemma bind_call {A B} c (act : World -> option (A * World)) (k : A -> M B) w :
  (call faults c act ≫= k) w =
    if faults c then (Raise (Failed c), emit c false w)
    else match act w with
         | Some (a, w') => k a (emit c true w')
         | None => (Raise (Failed c), emit c false w)
         end.
Proof.
  unfold mbind, M_bind, call. destruct (faults c); [done|].
  by destruct (act w) as [[a w']|].
Qed.

End Exec.

Ltac world_simpl :=
  cbn [fst snd cwd fs clock driver browser_open page log pg_viewport pg_content
       emit set_fs set_clock set_driver set_browser set_page process_start
       fmap option_fmap option_map].

(** Decide whether the next call faults, and go on in both cases. *)
Ltac split_fault f :=
  match goal with
  | |- context [if f ?c then _ else _] => destruct (f c) eqn:?
  end;
  world_simpl; rewrite ?url_to_path_target, ?snapshot_full, ?snapshot_hero.

(** One statement of the script: a call followed by the rest, the last
    call, the lookup of the document, or the exit of the [with] block. *)
Ltac exec_call f :=
  first
    [ rewrite bind_call; split_fault f
    | rewrite call_eq; split_fault f
    | match goal with
      | |- context [match ?m !! ?k with Some _ => _ | None => _ end] =>
          destruct (m !! k) eqn:?
      end
    | progress (unfold leave; cbn [fst snd]); rewrite call_eq; split_fault f ].

(** All the paths of [run] under the oracle [f]: one goal per path. *)
Ltac exec_run f :=
  unfold run, with_, sync_playwright_enter, sync_playwright_exit,
    chromium_launch, new_page, os_getcwd, page_goto, page_screenshot,
    page_wait_for_timeout, browser_close;
  repeat exec_call f.

(** The one path on which [run] returns: nothing faulted, the document was
    there, and the files and the log of the final world are known. *)
Lemma run_ok_inv render faults dir files now w' :
  run render faults (process_start dir files now) = (Ok tt, w') ->
  exists doc,
    files !! document_path dir = Some doc /\
    fs w' =
      <[hero_path dir :=
          Picture (mkImage 1200 800
                     (img_data (render doc (mkViewport 1280 2000) (now + 2000)
                                  (Clip (mkRect 0 0 1200 800)))))]>
        (<[full_path dir :=
             Picture (render doc (mkViewport 1280 2000) now FullPage)]> files) /\
    log w' =
      let vp := Some (mkViewport 1280 2000) in
      [ mkEvent SyncPlaywrightEnter true None;
        mkEvent (ChromiumLaunch true) true None;
        mkEvent (NewPage (mkViewport 1280 2000)) true vp;
        mkEvent Getcwd true vp;
        mkEvent (Goto (target_url dir)) true vp;
        mkEvent (Screenshot "verification/landing_page_full.png" FullPage) true vp;
        mkEvent (WaitForTimeout 2000) true vp;
        mkEvent (Screenshot "verification/landing_page_hero.png"
                   (Clip (mkRect 0 0 1200 800))) true vp;
        mkEvent BrowserClose true None;
        mkEvent SyncPlaywrightExit true None ].
Proof.
  exec_run faults; intros [= <-]; try discriminate.
  match goal with H : files !! _ = Some ?f |- _ => exists f end.
  repeat split; assumption || reflexivity.
Qed.

(** ** The claims *)

Section Claims.

Variable render : File -> Viewport -> Z -> Region -> Image.
Variable faults : Call -> bool.

(** C1. Whenever the browser has been launched, the run leaves through the
    exit of the Playwright session, whatever failed in between (the
    navigation and the captures included): the exit is the last call made,
    and unless the exit itself raises, neither the browser nor the driver
    is left alive. *)
Theorem browser_released_on_every_exit dir files now :
  let w' := (run render faults (process_start dir files now)).2 in
  acquired (log w') = true ->
  ev_call <$> last (log w') = Some SyncPlaywrightExit /\
  (faults SyncPlaywrightExit = false ->
   browser_open w' = false /\ driver w' = false).
Proof.
  intros w'; subst w'. exec_run faults; intros Hacq; try discriminate Hacq.
  all: split; [reflexivity | intros Hexit; try discriminate Hexit].
  all: split; reflexivity.
Qed.

(** X5. The statement [browser.close()] is reached only when the navigation and
    both captures have passed: on the other paths the browser goes down
    with the session. *)
Lemma close_only_after_captures dir files now :
  let w' := (run render faults (process_start dir files now)).2 in
  close_called (log w') = true ->
  loaded (log w') = true /\
  captured "verification/landing_page_full.png" (log w') = true /\
  captured "verification/landing_page_hero.png" (log w') = true.
Proof.
  intros w'; subst w'. exec_run faults; intros Hclose; try discriminate Hclose.
  all: repeat split; reflexivity.
Qed.

(** C8. Run as a program, the script exits with status 0 when every call
    it made returned normally, and with status 1 (an uncaught exception)
    when some call failed. *)
Theorem exit_code_reflects_failure dir files now :
  let out := script render faults "__main__" (process_start dir files now) in
  exit_code out.1 = (if forallb ev_ok (log out.2) then 0 else 1) /\
  forallb ev_ok (log out.2) = negb (existsb (fun e => negb (ev_ok e)) (log out.2)).
Proof.
  intros out; subst out. change (script render faults "__main__") with (run render faults).
  exec_run faults; split; reflexivity.
Qed.

(** C2, as the script has it. A run that returns has made exactly these
    calls, in this order: enter the session, launch the browser, open the
    page with its viewport, read the working directory, navigate, capture
    the full page, wait 2000 ms, capture the hero region, close the
    browser, leave the session. The wait comes after the full-page capture
    and before the hero capture. *)
Theorem run_step_order dir files now w' :
  run render faults (process_start dir files now) = (Ok tt, w') ->
  calls (log w') =
    [ SyncPlaywrightEnter;
      ChromiumLaunch true;
      NewPage (mkViewport 1280 2000);
      Getcwd;
      Goto ("file://" +:+ dir +:+ "/landing/index.html");
      Screenshot "verification/landing_page_full.png" FullPage;
      WaitForTimeout 2000;
      Screenshot "verification/landing_page_hero.png"
        (Clip (mkRect 0 0 1200 800));
      BrowserClose;
      SyncPlaywrightExit ].
Proof.
  intros Hrun. apply run_ok_inv in Hrun as (doc & _ & _ & Hlog).
  rewrite Hlog. reflexivity.
Qed.

(** C4, as the script has it. The URL is built during the run around the
    working directory of the process: a run navigates at most once, and
    then to ["file://" + cwd + "/landing/index.html"]. Runs started in the
    same directory navigate to the same URL. *)
Theorem navigated_url_from_cwd dir files now :
  let w' := (run render faults (process_start dir files now)).2 in
  navigated (log w') = [] \/
  navigated (log w') = ["file://" +:+ dir +:+ "/landing/index.html"].
Proof.
  intros w'; subst w'. exec_run faults; (by left) || (by right).
Qed.

(** C5. In a run that returns, and whenever the hero capture has passed,
    the clipped capture requested is exactly the rectangle of origin
    (0, 0), width 1200 and height 800, and the hero picture written is
    1200 pixels wide and 800 high: the rectangle lies inside the
    1280 x 2000 viewport, so nothing of it is trimmed. *)
Theorem hero_capture_dimensions dir files now :
  let out := run render faults (process_start dir files now) in
  out.1 = Ok tt \/ captured "verification/landing_page_hero.png" (log out.2) = true ->
  captured "verification/landing_page_hero.png" (log out.2) = true /\
  clips (log out.2) = [mkRect 0 0 1200 800] /\
  exists img, fs out.2 !! hero_path dir = Some (Picture img) /\
              img_width img = 1200 /\ img_height img = 800.
Proof.
  intros out; subst out.
  exec_run faults; intros [Hdone | Hcap]; try discriminate.
  all: repeat split; try reflexivity.
  all: eexists; split; [apply lookup_insert_eq | split; reflexivity].
Qed.

(** C9. The only call that sets a viewport is the opening of the page,
    with 1280 x 2000, and every viewport observed while the page is open
    is that one. *)
Theorem viewport_fixed dir files now :
  let w' := (run render faults (process_start dir files now)).2 in
  (viewport_settings (log w') = [] \/
   viewport_settings (log w') = [NewPage (mkViewport 1280 2000)]) /\
  Forall (fun vp => vp = mkViewport 1280 2000) (observed_viewports (log w')).
Proof.
  intros w'; subst w'.
  exec_run faults; (split; [first [by left | by right] | cbn; repeat constructor]).
Qed.

(** C10. Every clipped capture of a run starts at the origin of the page
    and lies inside the viewport the page has at that time: 0 + 1200 does
    not exceed 1280 and 0 + 800 does not exceed 2000. *)
Theorem hero_clip_within_viewport dir files now :
  let w' := (run render faults (process_start dir files now)).2 in
  Forall clip_inside_viewport (log w') /\
  Forall (fun r => r = mkRect 0 0 1200 800 /\
                   clip_within r (mkViewport 1280 2000)) (clips (log w')).
Proof.
  assert (Hin : clip_within (mkRect 0 0 1200 800) (mkViewport 1280 2000))
    by (unfold clip_within; cbn; lia).
  intros w'; subst w'. exec_run faults; split; cbn.
  all: repeat first
    [ apply Forall_nil_2
    | apply Forall_cons_2;
      [ first [ exact I | split; [reflexivity | exact Hin]
              | exists (mkViewport 1280 2000); repeat split; (reflexivity || apply Hin) ] | ] ].
Qed.

End Claims.

(** C7. Two runs in succession in the same directory, over a document that
    the engine renders the same at all times: the second run finds the
    document as the first one did, and writes the same full-page picture,
    which is the rendering of the document at the 1280 x 2000 viewport. *)
Theorem full_capture_idempotent render faults1 faults2 dir files now1 now2 doc w1 w2 :
  files !! document_path dir = Some doc ->
  (forall vp t t' r, render doc vp t r = render doc vp t' r) ->
  run render faults1 (process_start dir files now1) = (Ok tt, w1) ->
  run render faults2 (process_start dir (fs w1) now2) = (Ok tt, w2) ->
  fs w1 !! document_path dir = Some doc /\
  fs w2 !! full_path dir = fs w1 !! full_path dir /\
  forall t, fs w1 !! full_path dir =
            Some (Picture (render doc (mkViewport 1280 2000) t FullPage)).
Proof.
  intros Hdoc Hstill Hrun1 Hrun2.
  apply run_ok_inv in Hrun1 as (doc1 & Hdoc1 & Hfs1 & _).
  apply run_ok_inv in Hrun2 as (doc2 & Hdoc2 & Hfs2 & _).
  assert (Hkept : fs w1 !! document_path dir = Some doc).
  { rewrite Hfs1, !lookup_insert_ne; [exact Hdoc | |].
    - apply document_full_distinct.
    - apply document_hero_distinct. }
  assert (doc1 = doc) as -> by congruence.
  assert (doc2 = doc) as -> by congruence.
  assert (Hfull : forall t, fs w1 !! full_path dir =
            Some (Picture (render doc (mkViewport 1280 2000) t FullPage))).
  { intros t. rewrite Hfs1, lookup_insert_ne by (symmetry; apply full_hero_distinct).
    rewrite lookup_insert_eq. do 2 f_equal. apply Hstill. }
  split; [exact Hkept | split; [| exact Hfull]].
  rewrite (Hfull now2), Hfs2.
  rewrite lookup_insert_ne by (symmetry; apply full_hero_distinct).
  apply lookup_insert_eq.
Qed.

(** ** The claims on sample runs *)

Lemma browser_released_on_every_exit_witness :
  acquired (log failed_navigation_run.2) = true /\
  ev_call <$> last (log failed_navigation_run.2) = Some SyncPlaywrightExit /\
  (fails_at (Goto "file:///site/landing/index.html") SyncPlaywrightExit = false ->
   browser_open failed_navigation_run.2 = false /\
   driver failed_navigation_run.2 = false).
Proof.
  split; [vm_compute; reflexivity |].
  apply (browser_released_on_every_exit sample_render
           (fails_at (Goto "file:///site/landing/index.html")) "/site" site_files 0).
  vm_compute; reflexivity.
Defined.

Lemma run_step_order_witness :
  clean_run = (Ok tt, clean_run.2) /\
  calls (log clean_run.2) =
    [ SyncPlaywrightEnter;
      ChromiumLaunch true;
      NewPage (mkViewport 1280 2000);
      Getcwd;
      Goto "file:///site/landing/index.html";
      Screenshot "verification/landing_page_full.png" FullPage;
      WaitForTimeout 2000;
      Screenshot "verification/landing_page_hero.png"
        (Clip (mkRect 0 0 1200 800));
      BrowserClose;
      SyncPlaywrightExit ].
Proof.
  split; [vm_compute; reflexivity |].
  apply (run_step_order sample_render no_faults "/site" site_files 0).
  vm_compute; reflexivity.
Defined.

(** C2, as the claim has it: the wait does not precede every capture. On
    the sample site the full-page capture is made before the wait. *)
Lemma full_capture_precedes_wait :
  waits_before_captures false (calls (log clean_run.2)) = false.
Proof. vm_compute; reflexivity. Qed.

(** C4, as the claim has it: the URL is not one constant. Two runs over the
    same files, started in two directories, navigate to two URLs. *)
Lemma navigated_url_depends_on_cwd :
  navigated (log (run sample_render no_faults (process_start "/srv/a" two_sites 0)).2) ≠
  navigated (log (run sample_render no_faults (process_start "/srv/b" two_sites 0)).2).
Proof. vm_compute. discriminate. Qed.

Lemma hero_capture_dimensions_witness :
  (clean_run.1 = Ok tt \/
   captured "verification/landing_page_hero.png" (log clean_run.2) = true) /\
  captured "verification/landing_page_hero.png" (log clean_run.2) = true /\
  clips (log clean_run.2) = [mkRect 0 0 1200 800] /\
  exists img, fs clean_run.2 !! hero_path "/site" = Some (Picture img) /\
              img_width img = 1200 /\ img_height img = 800.
Proof.
  split; [left; vm_compute; reflexivity |].
  apply (hero_capture_dimensions sample_render no_faults "/site" site_files 0).
  left; vm_compute; reflexivity.
Defined.

(** C3, on a working directory with a [#] in its name. There is no
    [landing/index.html] under it, yet the run returns: the browser reads
    the URL up to the [#], loads the directory above and both pictures are
    written. The script puts the directory into the URL unquoted. *)
Lemma missing_document_run_completes :
  hash_files !! target_path hash_dir = None /\
  hash_run.1 = Ok tt /\
  loaded (log hash_run.2) = true /\
  writes hash_dir (log hash_run.2) = [full_path hash_dir; hero_path hash_dir] /\
  is_Some (fs hash_run.2 !! full_path hash_dir) /\
  is_Some (fs hash_run.2 !! hero_path hash_dir).
Proof. vm_compute. repeat split; eauto. Qed.

(** C6, on the same directory. The run returns without having read the
    target document, which does not exist: the file the URL designates is
    the directory above, and its listing is what the full-page picture
    shows. *)
Lemma completed_run_reads_another_file :
  hash_run.1 = Ok tt /\
  navigated (log hash_run.2) = ["file:///home/u/#x/landing/index.html"] /\
  url_to_path "file:///home/u/#x/landing/index.html" = Some "/home/u/" /\
  "/home/u/" ≠ target_path hash_dir /\
  hash_files !! target_path hash_dir = None /\
  fs hash_run.2 !! full_path hash_dir =
    Some (Picture (sample_render (Document "<h1>Index of /home/u/</h1>")
                     (mkViewport 1280 2000) 0 FullPage)).
Proof. vm_compute. repeat split; discriminate. Qed.

Lemma full_capture_idempotent_witness :
  site_files !! document_path "/site" = Some (Document "<h1>Hello</h1>") /\
  (forall vp t t' r,
     sample_render (Document "<h1>Hello</h1>") vp t r =
     sample_render (Document "<h1>Hello</h1>") vp t' r) /\
  clean_run = (Ok tt, clean_run.2) /\
  second_run = (Ok tt, second_run.2) /\
  fs clean_run.2 !! document_path "/site" = Some (Document "<h1>Hello</h1>") /\
  fs second_run.2 !! full_path "/site" = fs clean_run.2 !! full_path "/site" /\
  forall t, fs clean_run.2 !! full_path "/site" =
            Some (Picture (sample_render (Document "<h1>Hello</h1>")
                             (mkViewport 1280 2000) t FullPage)).
Proof.
  split; [vm_compute; reflexivity |].
  split; [intros vp t t' r; reflexivity |].
  split; [vm_compute; reflexivity |].
  split; [vm_compute; reflexivity |].
  apply (full_capture_idempotent sample_render no_faults no_faults
           "/site" site_files 0 5000 (Document "<h1>Hello</h1>")).
  - vm_compute; reflexivity.
  - intros vp t t' r; reflexivity.
  - vm_compute; reflexivity.
  - vm_compute; reflexivity.
Defined.

(** ** Further properties of the script *)

Section Extras.

Variable render : File -> Viewport -> Z -> Region -> Image.
Variable faults : Call -> bool.

(** X1. Whatever fails, a run creates or changes no file other than its
    two outputs; in particular the document it captures is never
    modified. *)
Theorem run_frame_on_every_path dir files now :
  let w' := (run render faults (process_start dir files now)).2 in
  (forall p, p ≠ full_path dir -> p ≠ hero_path dir -> fs w' !! p = files !! p) /\
  fs w' !! target_path dir = files !! target_path dir.
Proof.
  intros w'.
  assert (Hframe : forall p, p ≠ full_path dir -> p ≠ hero_path dir ->
                             fs w' !! p = files !! p).
  { subst w'. unfold full_path, hero_path.
    exec_run faults; intros p Hfull Hhero;
      rewrite ?lookup_insert_ne by congruence; reflexivity. }
  split; [exact Hframe |].
  apply Hframe; intros H; symmetry in H; revert H.
  - apply target_full_distinct.
  - apply target_hero_distinct.
Qed.


(** X3. A run stops at the first statement that fails. Either entering the
    session failed and nothing else was called, or the calls are the entry,
    the first [n] statements of the block and the exit of the session,
    where everything before the [n]-th statement passed. *)
Theorem run_calls_prefix dir files now :
  let w' := (run render faults (process_start dir files now)).2 in
  (faults SyncPlaywrightEnter = true /\ calls (log w') = [SyncPlaywrightEnter]) \/
  (exists n, (1 <= n <= 8)%nat /\
     calls (log w') =
       SyncPlaywrightEnter :: take n (steps dir) ++ [SyncPlaywrightExit] /\
     forallb ev_ok (take n (log w')) = true).
Proof.
  intros w'; subst w'. exec_run faults.
  1: by left.
  all: right.
  all: first
    [ exists 1%nat; split; [lia | split; reflexivity]
    | exists 2%nat; split; [lia | split; reflexivity]
    | exists 3%nat; split; [lia | split; reflexivity]
    | exists 4%nat; split; [lia | split; reflexivity]
    | exists 5%nat; split; [lia | split; reflexivity]
    | exists 6%nat; split; [lia | split; reflexivity]
    | exists 7%nat; split; [lia | split; reflexivity]
    | exists 8%nat; split; [lia | split; reflexivity] ].
Qed.

(** X4. No exception is swallowed and none is invented: the run returns
    when no call raised, and otherwise raises the exception of the call
    that raised last, that is the one of the failing statement, or the one
    of the exit of the session when the exit fails too. At most two calls
    raise. *)
Theorem outcome_is_last_failure dir files now :
  let out := run render faults (process_start dir files now) in
  out.1 = match last (failures (log out.2)) with
          | Some c => Raise (Failed c)
          | None => Ok tt
          end /\
  (length (failures (log out.2)) <= 2)%nat.
Proof.
  intros out; subst out. exec_run faults; (split; [reflexivity | cbn; lia]).
Qed.

(** X10. If the file that the navigated URL designates does not exist, the
    run ends in an exception, no navigation completes, no capture is
    written and the filesystem is what it was; unless the exit of the
    session itself raises, no browser is left alive. For a working
    directory free of URL-special characters that file is
    [landing/index.html] under it ([document_path_safe]). *)
Theorem missing_document_aborts_before_output dir files now :
  files !! document_path dir = None ->
  let out := run render faults (process_start dir files now) in
  (exists e, out.1 = Raise e) /\
  loaded (log out.2) = false /\
  writes dir (log out.2) = [] /\
  fs out.2 = files /\
  (faults SyncPlaywrightExit = false -> browser_open out.2 = false).
Proof.
  intros Hmissing out; subst out.
  exec_run faults; try congruence.
  all: repeat split; eauto; discriminate.
Qed.


(** X8. The session is entered once, and left exactly once when the entry
    passed and not at all when it failed, whatever happens in the block. *)
Theorem enter_and_exit_are_matched dir files now :
  let w' := (run render faults (process_start dir files now)).2 in
  enter_count (log w') = 1%nat /\
  exit_count (log w') = (if faults SyncPlaywrightEnter then 0 else 1)%nat.
Proof.
  intros w'; subst w'.
  destruct (faults SyncPlaywrightEnter) eqn:Henter.
  - exec_run faults; try congruence. split; reflexivity.
  - exec_run faults; try congruence; split; reflexivity.
Qed.

End Extras.

(** X9. Over a document that the engine renders the same at all times, a
    second run in succession changes nothing: the files it leaves are the
    files the first run left. *)
Theorem second_run_changes_nothing render faults1 faults2 dir files now1 now2 doc w1 w2 :
  files !! document_path dir = Some doc ->
  (forall vp t t' r, render doc vp t r = render doc vp t' r) ->
  run render faults1 (process_start dir files now1) = (Ok tt, w1) ->
  run render faults2 (process_start dir (fs w1) now2) = (Ok tt, w2) ->
  fs w2 = fs w1.
Proof.
  intros Hdoc Hstill Hrun1 Hrun2.
  apply run_ok_inv in Hrun1 as (doc1 & Hdoc1 & Hfs1 & _).
  apply run_ok_inv in Hrun2 as (doc2 & Hdoc2 & Hfs2 & _).
  assert (doc1 = doc) as -> by congruence.
  assert (doc2 = doc) as ->.
  { rewrite Hfs1, !lookup_insert_ne in Hdoc2;
      [congruence | apply document_full_distinct | apply document_hero_distinct]. }
  rewrite Hfs2, Hfs1.
  rewrite (Hstill _ (now2 + 2000) (now1 + 2000)), (Hstill _ now2 now1).
  apply map_eq. intros p.
  destruct (decide (p = hero_path dir)) as [-> | Hhero].
  { by rewrite !lookup_insert_eq. }
  rewrite (lookup_insert_ne _ (hero_path dir)) by congruence.
  destruct (decide (p = full_path dir)) as [-> | Hfull].
  { rewrite lookup_insert_eq.
    rewrite lookup_insert_ne by (symmetry; apply full_hero_distinct).
    by rewrite lookup_insert_eq. }
  rewrite (lookup_insert_ne _ (full_path dir)) by congruence. reflexivity.
Qed.

(** ** The further properties on sample runs *)

Lemma run_frame_on_every_path_witness :
  (forall p, p ≠ full_path "/site" -> p ≠ hero_path "/site" ->
             fs clean_run.2 !! p = site_files !! p) /\
  fs clean_run.2 !! target_path "/site" = site_files !! target_path "/site".
Proof.
  apply (run_frame_on_every_path sample_render no_faults "/site" site_files 0).
Defined.


Lemma close_only_after_captures_witness :
  close_called (log clean_run.2) = true /\
  loaded (log clean_run.2) = true /\
  captured "verification/landing_page_full.png" (log clean_run.2) = true /\
  captured "verification/landing_page_hero.png" (log clean_run.2) = true.
Proof.
  split; [vm_compute; reflexivity |].
  apply (close_only_after_captures sample_render no_faults "/site" site_files 0).
  vm_compute; reflexivity.
Defined.

Lemma missing_document_aborts_before_output_witness :
  (∅ : gmap string File) !! document_path "/site" = None /\
  (exists e, missing_document_run.1 = Raise e) /\
  loaded (log missing_document_run.2) = false /\
  writes "/site" (log missing_document_run.2) = [] /\
  fs missing_document_run.2 = ∅ /\
  (no_faults SyncPlaywrightExit = false ->
   browser_open missing_document_run.2 = false).
Proof.
  split; [vm_compute; reflexivity |].
  apply (missing_document_aborts_before_output sample_render no_faults "/site" ∅ 0).
  vm_compute; reflexivity.
Defined.


Lemma second_run_changes_nothing_witness :
  site_files !! document_path "/site" = Some (Document "<h1>Hello</h1>") /\
  (forall vp t t' r,
     sample_render (Document "<h1>Hello</h1>") vp t r =
     sample_render (Document "<h1>Hello</h1>") vp t' r) /\
  clean_run = (Ok tt, clean_run.2) /\
  second_run = (Ok tt, second_run.2) /\
  fs second_run.2 = fs clean_run.2.
Proof.
  split; [vm_compute; reflexivity |].
  split; [intros vp t t' r; reflexivity |].
  split; [vm_compute; reflexivity |].
  split; [vm_compute; reflexivity |].
  apply (second_run_changes_nothing sample_render no_faults no_faults
           "/site" site_files 0 5000 (Document "<h1>Hello</h1>")).
  - vm_compute; reflexivity.
  - intros vp t t' r; reflexivity.
  - vm_compute; reflexivity.
  - vm_compute; reflexivity.
Defined.
